(** * Neighborhood Toolkit: the lending lifecycle of [src/App.js]

    A shallow embedding of the data handling of the single-page client:
    the records it stores in the document database, the handlers that
    write them ([handleSubmit], [handleAction], [handleReturn], the
    sign-in callback) and the pure view computations (the filter of the
    browsing view, the comparator of the borrow history).

    Rendering is reduced to what a view decides to show.  The document
    database and its SDK are external to the repository; the database is
    modelled by finite maps from document identifiers to records, one map
    per collection, and the SDK by the functions [doc], [collection] and
    the calls on the references they return. *)

From Stdlib Require Import ZArith Sorting.Sorted.
From stdpp Require Import base option list relations gmap strings fin_maps.

Local Open Scope string_scope.
Local Open Scope list_scope.
Local Open Scope Z_scope.

(** ** Data model *)

(** Document identifiers and user identifiers are JavaScript strings.  A
    JavaScript string is a sequence of UTF-16 code units; it is written
    here as the string that has one character per code unit, so that
    positions and lengths are those JavaScript counts.  The strings with
    a code unit of 256 or more are left out; every identifier the
    identity service or the database issues is ASCII. *)
Abbreviation DocId := string.
Abbreviation Uid := string.

(** A Firestore [Timestamp], of which the code only reads [seconds]. *)
Record Timestamp := mkTimestamp { seconds : Z; nanoseconds : Z }.

(** [status] of an item: ['available'] or ['borrowed']. *)
Inductive ItemStatus := available | borrowed.

(** [status] of a request: ['pending'], ['approved'], ['declined'],
    ['returned']. *)
Inductive RequestStatus := pending | approved | declined | returned.

#[global] Instance ItemStatus_eq_dec : EqDecision ItemStatus.
Proof. solve_decision. Defined.
#[global] Instance RequestStatus_eq_dec : EqDecision RequestStatus.
Proof. solve_decision. Defined.
#[global] Instance Timestamp_eq_dec : EqDecision Timestamp.
Proof. solve_decision. Defined.

(** The profile document written by the sign-in callback. *)
Module Profile.
Record t := mk {
  displayName : string;
  neighborhoodId : string;
  createdAt : option Timestamp
}.
End Profile.

(** The item document written by [AddItemModal.handleSubmit].  A field a
    document may lack ([imageUrl], and a timestamp the server has not yet
    filled in) is an [option]. *)
Module Item.
Record t := mk {
  name : string;
  description : string;
  imageUrl : option string;
  terms : string;
  ownerId : Uid;
  ownerName : string;
  status : ItemStatus;
  createdAt : option Timestamp
}.

Definition with_status (st : ItemStatus) (it : t) : t :=
  mk (name it) (description it) (imageUrl it) (terms it)
     (ownerId it) (ownerName it) st (createdAt it).
End Item.

(** The request document written by [BorrowModal.handleSubmit]. *)
Module Request.
Record t := mk {
  itemId : DocId;
  itemName : string;
  itemImageUrl : string;
  ownerId : Uid;
  borrowerId : Uid;
  borrowerName : string;
  borrowDate : string;
  returnDate : string;
  message : string;
  status : RequestStatus;
  requestedAt : option Timestamp;
  conditionCheckIn : string;
  conditionCheckOut : string
}.

Definition with_status (st : RequestStatus) (r : t) : t :=
  mk (itemId r) (itemName r) (itemImageUrl r) (ownerId r) (borrowerId r)
     (borrowerName r) (borrowDate r) (returnDate r) (message r) st
     (requestedAt r) (conditionCheckIn r) (conditionCheckOut r).
End Request.

#[global] Instance Item_eq_dec : EqDecision Item.t.
Proof. solve_decision. Defined.
#[global] Instance Request_eq_dec : EqDecision Request.t.
Proof. solve_decision. Defined.

(** What a snapshot listener builds from a document:
    [{ id: doc.id, ...doc.data() }]. *)
Abbreviation Doc A := (DocId * A)%type.

(** JavaScript truthiness of a string, and [a || b] on a possibly missing
    string. *)
Definition truthy (s : string) : bool :=
  match s with EmptyString => false | String _ _ => true end.

Definition or_string (a : option string) (b : string) : string :=
  match a with
  | Some s => if truthy s then s else b
  | None => b
  end.

(** ** The browsing view ([Dashboard]) *)

(** The predicate of [items.filter(...)] in [Dashboard]:
    [item.status === 'available' && item.ownerId !== user.uid]. *)
Definition Dashboard_filter (uid : Uid) (item : Doc Item.t) : bool :=
  bool_decide (Item.status item.2 = available)
  && negb (bool_decide (Item.ownerId item.2 = uid)).

(** What [Dashboard] puts below its heading: the paragraph "No items have
    been shared in your neighborhood yet" or the grid of item cards. *)
Inductive DashboardBody :=
| NoItemsMessage
| ItemGrid (cards : list (Doc Item.t)).

Definition Dashboard_body (items : list (Doc Item.t)) (uid : Uid) : DashboardBody :=
  if (length items =? 0)%nat then NoItemsMessage
  else ItemGrid (List.filter (Dashboard_filter uid) items).

(** The cards on screen; the message shows none. *)
Definition Dashboard_cards (items : list (Doc Item.t)) (uid : Uid) : list (Doc Item.t) :=
  match Dashboard_body items uid with
  | NoItemsMessage => []
  | ItemGrid cards => cards
  end.

(** ** The document store and the effects of a handler *)

(** The two shared collections of one neighborhood,
    [.../public/data/${neighborhoodId}/items] and [.../requests], each a
    finite map from document identifier to document.  Every session of a
    run works in that one neighborhood. *)
Record Store := mkStore {
  items : gmap DocId Item.t;
  requests : gmap DocId Request.t
}.


(** A write sent to the database. *)
Inductive Write :=
| AddItem (id : DocId) (data : Item.t)
| AddRequest (id : DocId) (data : Request.t)
| AddProfile (path : list string) (data : Profile.t)
| UpdateItemStatus (id : DocId) (st : ItemStatus)
| UpdateRequestStatus (id : DocId) (st : RequestStatus).

(** What a handler does that an observer can see: a write the database
    accepted, a write it rejected, a line on [console.error]. *)
Inductive Event :=
| Written (w : Write)
| Rejected (w : Write)
| ConsoleError (msg : string).

(** A rejected promise or a thrown exception. *)
Inductive Error :=
| NotFound
| AlreadyExists
| Unavailable
| InvalidArgument
| TypeError.

Inductive Result (A : Type) :=
| Ok (a : A)
| Threw (e : Error).
Arguments Ok {A} a.
Arguments Threw {A} e.

(** A handler is a state transformer on the database that also yields the
    events it caused, in order, and either a value or an exception. *)
Definition M (S A : Type) : Type := S → S * list Event * Result A.

Definition ret {S A} (a : A) : M S A := fun s => (s, [], Ok a).

Definition bind {S A B} (m : M S A) (k : A → M S B) : M S B :=
  fun s =>
    match m s with
    | (s1, ev1, Ok a) =>
        match k a s1 with
        | (s2, ev2, r) => (s2, ev1 ++ ev2, r)
        end
    | (s1, ev1, Threw e) => (s1, ev1, Threw e)
    end.

Definition throw {S A} (e : Error) : M S A := fun s => (s, [], Threw e).

(** [try { body } catch (error) { handler(error) }]. *)
Definition try_catch {S A} (body : M S A) (handler : Error → M S A) : M S A :=
  fun s =>
    match body s with
    | (s1, ev1, Ok a) => (s1, ev1, Ok a)
    | (s1, ev1, Threw e) =>
        match handler e s1 with
        | (s2, ev2, r) => (s2, ev1 ++ ev2, r)
        end
    end.

Definition console_error {S} (msg : string) : M S unit :=
  fun s => (s, [ConsoleError msg], Ok tt).

#[global] Instance M_ret {S} : MRet (M S) := fun A => ret.
#[global] Instance M_bind {S} : MBind (M S) := fun A B k m => bind m k.

(** The store after a handler ran, the events it caused, its result. *)
Definition store_of {S A} (x : S * list Event * Result A) : S := x.1.1.
Definition events_of {S A} (x : S * list Event * Result A) : list Event := x.1.2.
Definition result_of {S A} (x : S * list Event * Result A) : Result A := x.2.

(** *** References

    A path is kept as the list of its segments.  The template strings of
    the source name each segment; what they interpolate (the deployment
    identifier, a neighborhood identifier, a user or document identifier)
    is one segment each, as none of them holds a slash. *)

Record DocumentReference := mkDocumentReference { document_path : list string }.
Record CollectionReference := mkCollectionReference { collection_path : list string }.

(** [doc(db, path)] and [doc(db, path, id)]: the SDK builds a document
    reference from a path of an even number of segments and throws
    [invalid-argument] on any other. *)
Definition doc {S} (segments : list string) : M S DocumentReference :=
  fun s =>
    if Nat.even (length segments)
    then (s, [], Ok (mkDocumentReference segments))
    else (s, [], Threw InvalidArgument).

(** [collection(db, path)]: a collection reference needs an odd number
    of segments. *)
Definition collection {S} (segments : list string) : M S CollectionReference :=
  fun s =>
    if Nat.odd (length segments)
    then (s, [], Ok (mkCollectionReference segments))
    else (s, [], Threw InvalidArgument).

(** The identifier of the document a reference names: its last
    segment. *)
Definition document_id (ref : DocumentReference) : DocId :=
  List.last (document_path ref) "".

(** [/artifacts/${appId}/public/data/${neighborhoodId}/items] and
    [.../requests]. *)
Definition itemsPath (appId neighborhoodId : string) : list string :=
  ["artifacts"; appId; "public"; "data"; neighborhoodId; "items"].

Definition requestsPath (appId neighborhoodId : string) : list string :=
  ["artifacts"; appId; "public"; "data"; neighborhoodId; "requests"].

(** [userProfile?.neighborhoodId || 'west-boone'], the neighborhood of
    the three views. *)
Definition view_neighborhoodId (userProfile : option Profile.t) : string :=
  or_string (Profile.neighborhoodId <$> userProfile) "west-boone".

(** *** Database calls

    Each call that goes to the database takes a flag [ok]: whether the
    database accepts it this time.  A call it does not accept rejects the
    promise, which [await] turns into an exception.  The store holds the
    two collections of the neighborhood; a call reaches the document its
    reference names by identifier. *)

(** [addDoc(itemsCollection, data)]: the SDK picks the new identifier
    [id]; the write creates and never overwrites. *)
Definition addItem (ok : bool) (ref : CollectionReference) (id : DocId)
    (data : Item.t) : M Store unit :=
  fun s =>
    match items s !! id with
    | Some _ => (s, [Rejected (AddItem id data)], Threw AlreadyExists)
    | None =>
        if ok then (mkStore (<[id := data]> (items s)) (requests s),
                    [Written (AddItem id data)], Ok tt)
        else (s, [Rejected (AddItem id data)], Threw Unavailable)
    end.

(** [addDoc(requestsCollection, data)]. *)
Definition addRequest (ok : bool) (ref : CollectionReference) (id : DocId)
    (data : Request.t) : M Store unit :=
  fun s =>
    match requests s !! id with
    | Some _ => (s, [Rejected (AddRequest id data)], Threw AlreadyExists)
    | None =>
        if ok then (mkStore (items s) (<[id := data]> (requests s)),
                    [Written (AddRequest id data)], Ok tt)
        else (s, [Rejected (AddRequest id data)], Threw Unavailable)
    end.

(** [updateDoc(requestRef, { status: st })]: only the named field
    changes; updating a document that does not exist fails. *)
Definition updateRequestStatus (ok : bool) (ref : DocumentReference)
    (st : RequestStatus) : M Store unit :=
  let id := document_id ref in
  fun s =>
    match requests s !! id with
    | None => (s, [Rejected (UpdateRequestStatus id st)], Threw NotFound)
    | Some r =>
        if ok then (mkStore (items s) (<[id := Request.with_status st r]> (requests s)),
                    [Written (UpdateRequestStatus id st)], Ok tt)
        else (s, [Rejected (UpdateRequestStatus id st)], Threw Unavailable)
    end.

(** [updateDoc(itemRef, { status: st })]. *)
Definition updateItemStatus (ok : bool) (ref : DocumentReference)
    (st : ItemStatus) : M Store unit :=
  let id := document_id ref in
  fun s =>
    match items s !! id with
    | None => (s, [Rejected (UpdateItemStatus id st)], Threw NotFound)
    | Some it =>
        if ok then (mkStore (<[id := Item.with_status st it]> (items s)) (requests s),
                    [Written (UpdateItemStatus id st)], Ok tt)
        else (s, [Rejected (UpdateItemStatus id st)], Threw Unavailable)
    end.

(** [getDoc(requestRef)]: the snapshot's [data()], which is [undefined]
    for a document that does not exist. *)
Definition getRequest (ok : bool) (ref : DocumentReference) : M Store (option Request.t) :=
  fun s =>
    if ok then (s, [], Ok (requests s !! document_id ref))
    else (s, [], Threw Unavailable).

(** ** The handlers

    Every handler takes the deployment identifier [appId] and the props
    [user.uid] and [userProfile] of its component; [userProfile] is
    [null], here [None], until a sign-in has set it. *)

(** [AddItemModal.handleSubmit].  The dereference
    [userProfile.neighborhoodId] and the call of [collection] come before
    the [try]. *)
Definition AddItemModal_handleSubmit (appId : string) (ok : bool) (newId : DocId)
    (now : Timestamp) (uid : Uid) (userProfile : option Profile.t)
    (name description imageUrl terms : string) : M Store unit :=
  if negb (truthy name) || negb (truthy description) then mret tt
  else
    match userProfile with
    | None => throw TypeError
    | Some profile =>
        let neighborhoodId := Profile.neighborhoodId profile in
        itemsCollection ← collection (itemsPath appId neighborhoodId);
        try_catch
          (addItem ok itemsCollection newId
             (Item.mk name description (Some imageUrl) terms uid
                (Profile.displayName profile) available (Some now)))
          (fun _ => console_error "Error adding item:")
    end.

(** [BorrowModal.handleSubmit], for the [item] the modal was opened on. *)
Definition BorrowModal_handleSubmit (appId : string) (ok : bool) (newId : DocId)
    (now : Timestamp) (uid : Uid) (userProfile : option Profile.t)
    (item : Doc Item.t) (borrowDate returnDate message : string) : M Store unit :=
  if negb (truthy borrowDate) || negb (truthy returnDate) then mret tt
  else
    match userProfile with
    | None => throw TypeError
    | Some profile =>
        let neighborhoodId := Profile.neighborhoodId profile in
        requestsCollection ← collection (requestsPath appId neighborhoodId);
        try_catch
          (addRequest ok requestsCollection newId
             (Request.mk item.1 (Item.name item.2)
                (or_string (Item.imageUrl item.2) "")
                (Item.ownerId item.2) uid (Profile.displayName profile)
                borrowDate returnDate message pending (Some now) "" ""))
          (fun _ => console_error "Error creating borrow request:")
    end.

(** [MyItems.handleAction]: no [try]; an exception leaves the function at
    the statement that raised it.  [ok_request], [ok_read] and [ok_item]
    are the fates of its three database calls. *)
Definition MyItems_handleAction (appId : string) (userProfile : option Profile.t)
    (ok_request ok_read ok_item : bool)
    (requestId : DocId) (newStatus : RequestStatus) : M Store unit :=
  let neighborhoodId := view_neighborhoodId userProfile in
  requestRef ← doc (requestsPath appId neighborhoodId ++ [requestId]);
  updateRequestStatus ok_request requestRef newStatus;;
  if bool_decide (newStatus = approved) then
    requestData ← getRequest ok_read requestRef;
    match requestData with
    | None => throw TypeError
    | Some requestData =>
        itemRef ← doc (itemsPath appId neighborhoodId ++ [Request.itemId requestData]);
        updateItemStatus ok_item itemRef borrowed
    end
  else mret tt.

(** [MyBorrows.handleReturn], on the [request] object of a rendered row:
    the two references are made before the [try], the two writes sit
    inside it and its [catch] logs. *)
Definition MyBorrows_handleReturn (appId : string) (userProfile : option Profile.t)
    (ok_request ok_item : bool) (request : Doc Request.t) : M Store unit :=
  let neighborhoodId := view_neighborhoodId userProfile in
  requestRef ← doc (requestsPath appId neighborhoodId ++ [request.1]);
  itemRef ← doc (itemsPath appId neighborhoodId ++ [Request.itemId request.2]);
  try_catch
    (updateRequestStatus ok_request requestRef returned;;
     updateItemStatus ok_item itemRef available)
    (fun _ => console_error "Error returning item:").

(** ** The borrow-history view ([MyBorrows]) *)

(** The table [statusOrder] of the comparator. *)
Definition statusOrder (st : RequestStatus) : Z :=
  match st with
  | approved => 1
  | pending => 2
  | returned => 3
  | declined => 4
  end.

(** [x.requestedAt?.seconds || 0]. *)
Definition requestedAt_seconds (r : Request.t) : Z :=
  match Request.requestedAt r with
  | Some t => if seconds t =? 0 then 0 else seconds t
  | None => 0
  end.

(** The comparator passed to [requestsData.sort]. *)
Definition MyBorrows_compare (a b : Doc Request.t) : Z :=
  if negb (statusOrder (Request.status a.2) =? statusOrder (Request.status b.2))
  then statusOrder (Request.status a.2) - statusOrder (Request.status b.2)
  else requestedAt_seconds b.2 - requestedAt_seconds a.2.

(** [Array.prototype.sort(compare)].  The language requires the sort to be
    stable and leaves the algorithm open; for a comparator that is a total
    preorder, as the one of [MyBorrows] is, the stable sorted arrangement
    of an array is unique, so the plainest stable sort stands for all of
    them: insertion from the right. *)
Fixpoint sort_insert {A} (compare : A → A → Z) (x : A) (l : list A) : list A :=
  match l with
  | [] => [x]
  | y :: l' =>
      if compare x y <=? 0 then x :: y :: l'
      else y :: sort_insert compare x l'
  end.

Definition Array_sort {A} (compare : A → A → Z) (l : list A) : list A :=
  foldr (sort_insert compare) [] l.

(** The snapshot listener of [MyBorrows]: the documents of the query
    [where("borrowerId", "==", user.uid)], sorted, become [myRequests]. *)
Definition MyBorrows_myRequests (uid : Uid) (s : Store) : list (Doc Request.t) :=
  Array_sort MyBorrows_compare
    (List.filter (fun d => bool_decide (Request.borrowerId d.2 = uid))
       (map_to_list (requests s))).

(** The rows of [MyBorrows] that carry the button "Mark as Returned":
    [req.status === 'approved']. *)
Definition MyBorrows_returnable (uid : Uid) (s : Store) : list (Doc Request.t) :=
  List.filter (fun req => bool_decide (Request.status req.2 = approved))
    (MyBorrows_myRequests uid s).

(** ** The inventory view ([MyItems]) *)





(** ** Runs of the client *)

(** The props [user] and [userProfile] every view is rendered with. *)
Record Session := mkSession { user_uid : Uid; userProfile : option Profile.t }.






(** ** Session bootstrap ([App]) *)

(** The state hooks of [App] that the sign-in callback sets. *)
Module App.
Record t := mk {
  user : option Uid;
  userProfile : option Profile.t;
  isAuthReady : bool
}.
End App.

(** The per-user part of the database, documents by their full path, next
    to the state of [App]. *)
Record AuthWorld := mkAuthWorld {
  docs : gmap (list string) Profile.t;
  app : App.t
}.

(** [typeof __app_id !== 'undefined' ? __app_id : 'neighborhood-toolkit']. *)
Definition appId (env_app_id : option string) : string :=
  match env_app_id with
  | Some id => id
  | None => "neighborhood-toolkit"
  end.

(** The template string [/artifacts/${appId}/users/${uid}/profile], one
    segment per entry; [appId] and [uid] hold no slash. *)
Definition profilePath (appId : string) (uid : Uid) : list string :=
  ["artifacts"; appId; "users"; uid; "profile"].

(** [getDoc(doc(db, path))]: the document stored at exactly [path]. *)
(** [getDoc(userRef)]: the document stored at exactly the path of the
    reference. *)
Definition getProfile (ok : bool) (ref : DocumentReference) : M AuthWorld (option Profile.t) :=
  fun w =>
    if ok then (w, [], Ok (docs w !! document_path ref))
    else (w, [], Threw Unavailable).

(** [addDoc(collection(db, path), data)]: a new document inside the
    collection, under the identifier [id] the SDK picks, so at [path/id];
    [createdAt: serverTimestamp()] is stored as the server's time
    [now]. *)
Definition addProfile (ok : bool) (ref : CollectionReference) (id : DocId)
    (now : Timestamp) (data : Profile.t) : M AuthWorld unit :=
  let path := collection_path ref in
  let stored := Profile.mk (Profile.displayName data) (Profile.neighborhoodId data) (Some now) in
  fun w =>
    match docs w !! (path ++ [id]) with
    | Some _ => (w, [Rejected (AddProfile (path ++ [id]) stored)], Threw AlreadyExists)
    | None =>
        if ok then (mkAuthWorld (<[path ++ [id] := stored]> (docs w)) (app w),
                    [Written (AddProfile (path ++ [id]) stored)], Ok tt)
        else (w, [Rejected (AddProfile (path ++ [id]) stored)], Threw Unavailable)
    end.

Definition setUser (u : option Uid) : M AuthWorld unit :=
  fun w => (mkAuthWorld (docs w)
              (App.mk u (App.userProfile (app w)) (App.isAuthReady (app w))), [], Ok tt).

Definition setUserProfile (p : option Profile.t) : M AuthWorld unit :=
  fun w => (mkAuthWorld (docs w)
              (App.mk (App.user (app w)) p (App.isAuthReady (app w))), [], Ok tt).

Definition setIsAuthReady (b : bool) : M AuthWorld unit :=
  fun w => (mkAuthWorld (docs w)
              (App.mk (App.user (app w)) (App.userProfile (app w)) b), [], Ok tt).

(** The callback given to [onAuthStateChanged].  The local object
    [newProfile] holds the unresolved [serverTimestamp()] sentinel, here
    [None]. *)
Definition App_onAuthStateChanged (appId : string) (ok_read ok_write : bool)
    (newId : DocId) (now : Timestamp) (currentUser : option Uid) : M AuthWorld unit :=
  match currentUser with
  | Some uid =>
      setUser (Some uid);;
      userRef ← doc (profilePath appId uid);
      userSnap ← getProfile ok_read userRef;
      match userSnap with
      | None =>
          let newProfile :=
            Profile.mk (String.append "Neighbor-" (String.substring 0 5 uid)) "west-boone" None in
          profiles ← collection (profilePath appId uid);
          addProfile ok_write profiles newId now newProfile;;
          setUserProfile (Some newProfile)
      | Some data => setUserProfile (Some data)
      end
  | None =>
      setUser None;;
      setUserProfile None
  end;;
  setIsAuthReady true.

Definition freshWorld : AuthWorld := mkAuthWorld ∅ (App.mk None None false).

(** ** Sample sessions and stores *)

Definition bob : Session := mkSession "bob-uid" None.
Definition cat : Session := mkSession "cat-uid" None.


Definition noon : Timestamp := mkTimestamp 1700000000 0.

(** A store in which Ann's drill has been asked for by Bob; the same
    after an approval; the same after the return. *)
Definition drill : Item.t :=
  Item.mk "Drill" "A power drill" (Some "") "" "ann-uid" "Neighbor-ann-u"
    available (Some noon).

Definition bobs_request : Request.t :=
  Request.mk "item1" "Drill" "" "ann-uid" "bob-uid" "Neighbor-bob-u"
    "2024-05-01" "2024-05-03" "" pending (Some noon) "" "".

Definition asked : Store :=
  mkStore {[ "item1" := drill ]} {[ "req1" := bobs_request ]}.





(** ** The order of the borrow history, as it is described

    Written from the description of the view, not from its comparator:
    the statuses in the precedence approved, pending, returned,
    declined, and within one status the later request first.  The time
    of a request is the [seconds] of its [requestedAt]; a request the
    server has not stamped yet counts as second 0. *)
Inductive status_precedes : RequestStatus → RequestStatus → Prop :=
| approved_pending : status_precedes approved pending
| approved_returned : status_precedes approved returned
| approved_declined : status_precedes approved declined
| pending_returned : status_precedes pending returned
| pending_declined : status_precedes pending declined
| returned_declined : status_precedes returned declined.

Definition request_second (r : Request.t) : Z :=
  match Request.requestedAt r with
  | Some t => seconds t
  | None => 0
  end.

Definition history_order (a b : Doc Request.t) : Prop :=
  status_precedes (Request.status a.2) (Request.status b.2)
  ∨ (Request.status a.2 = Request.status b.2
     ∧ request_second b.2 ≤ request_second a.2).

(** ** The lifecycle of a request and of an item *)



(** The pages behind the navigation bar, and what [App] returns: the
    line "Loading Toolkit...", the welcome panel, or the current page. *)
Inductive PageName := dashboard | myItems | myBorrows.

Inductive Screen :=
| LoadingToolkit
| WelcomePanel
| ShowPage (page : PageName).

Definition App_render (a : App.t) (db : bool) (page : PageName) : Screen :=
  if negb (App.isAuthReady a) then LoadingToolkit
  else
    match App.user a with
    | Some _ => if db then ShowPage page else WelcomePanel
    | None => WelcomePanel
    end.




(** * Properties *)

(** ** The browsing view *)

Lemma Dashboard_filter_true uid item :
  Dashboard_filter uid item = true
  ↔ Item.status item.2 = available ∧ Item.ownerId item.2 ≠ uid.
Proof.
  unfold Dashboard_filter.
  rewrite andb_true_iff, negb_true_iff, bool_decide_eq_true, bool_decide_eq_false.
  reflexivity.
Qed.

Lemma Dashboard_cards_filter items uid :
  Dashboard_cards items uid = List.filter (Dashboard_filter uid) items.
Proof.
  unfold Dashboard_cards, Dashboard_body.
  destruct items as [|item items]; reflexivity.
Qed.

(** C6.  Whatever the unfiltered feed holds, the cards of the browsing
    view are exactly the items of the feed that are ['available'] and not
    owned by the viewer, in the order of the feed. *)
Theorem C6_browsing_shows_available_items_of_others
    (items : list (Doc Item.t)) (uid : Uid) :
  (∀ item, item ∈ Dashboard_cards items uid
           ↔ item ∈ items ∧ Item.status item.2 = available
             ∧ Item.ownerId item.2 ≠ uid)
  ∧ sublist (Dashboard_cards items uid) items.
Proof.
  rewrite Dashboard_cards_filter. split.
  - intros item.
    rewrite !list_elem_of_In, filter_In, Dashboard_filter_true. reflexivity.
  - induction items as [|item items IH]; simpl; [constructor|].
    destruct (Dashboard_filter uid item); by constructor.
Qed.

(** C10.  The message "No items have been shared" is decided by the
    unfiltered feed: it shows exactly when the feed is empty, and a
    non-empty feed of which the filter keeps nothing gives an empty grid
    without the message. *)
Theorem C10_empty_message_follows_unfiltered_feed
    (items : list (Doc Item.t)) (uid : Uid) :
  (Dashboard_body items uid = NoItemsMessage ↔ items = [])
  ∧ (items ≠ [] →
     Forall (fun item => Item.status item.2 ≠ available ∨ Item.ownerId item.2 = uid) items →
     Dashboard_body items uid = ItemGrid []).
Proof.
  unfold Dashboard_body. split.
  - destruct items; simpl; split; intros; congruence.
  - intros Hne Hall. revert Hne.
    assert (List.filter (Dashboard_filter uid) items = []) as ->.
    { induction Hall as [|x l Hx _ IH]; [reflexivity|]. simpl.
      destruct (Dashboard_filter uid x) eqn:E; [|apply IH].
      apply Dashboard_filter_true in E. destruct E, Hx; congruence. }
    destruct items; [intros []; reflexivity|reflexivity].
Qed.

Lemma C10_witness :
  Dashboard_body
    [("item1", Item.mk "Drill" "A power drill" None "" "ann-uid" "Ann" borrowed None)]
    "bob-uid" = ItemGrid [].
Proof.
  apply C10_empty_message_follows_unfiltered_feed.
  - discriminate.
  - constructor; [left; simpl; discriminate | constructor].
Defined.

(** ** The borrow-history view *)

Section ArraySort.
Context {A : Type} (compare : A → A → Z).

Let before (a b : A) : Prop := compare a b ≤ 0.

Hypothesis compare_total : ∀ a b, before a b ∨ before b a.
Hypothesis compare_trans : ∀ a b c, before a b → before b c → before a c.

Lemma sort_insert_Permutation x l : sort_insert compare x l ≡ₚ x :: l.
Proof.
  induction l as [|y l IH]; simpl; [reflexivity|].
  destruct (compare x y <=? 0); [reflexivity|].
  rewrite IH. apply Permutation_swap.
Qed.


Lemma sort_insert_StronglySorted x l :
  StronglySorted before l → StronglySorted before (sort_insert compare x l).
Proof.
  induction 1 as [|y l Hs IH Hy]; simpl.
  - repeat constructor.
  - destruct (Z.leb_spec (compare x y) 0) as [Hxy|Hxy].
    + constructor; [by constructor|]. constructor; [exact Hxy|].
      eapply Forall_impl; [exact Hy|]. intros z Hz. by eapply compare_trans.
    + constructor; [exact IH|].
      rewrite sort_insert_Permutation. constructor; [|exact Hy].
      destruct (compare_total y x) as [H|H]; [exact H|]. unfold before in H. lia.
Qed.

Lemma Array_sort_StronglySorted l : StronglySorted before (Array_sort compare l).
Proof.
  induction l as [|x l IH]; simpl; [constructor|].
  by apply sort_insert_StronglySorted.
Qed.

(** The sort is stable: the elements that tie with a given [z] come out
    in the order they went in. *)
Let ties (z y : A) : bool := (compare z y <=? 0) && (compare y z <=? 0).

Lemma sort_insert_stable z x l :
  List.filter (ties z) (sort_insert compare x l) = List.filter (ties z) (x :: l).
Proof.
  induction l as [|y l IH]; [reflexivity|].
  cbn [sort_insert]. destruct (Z.leb_spec (compare x y) 0) as [Hxy|Hxy]; [reflexivity|].
  cbn [List.filter] in *. rewrite IH.
  destruct (ties z x) eqn:Hx, (ties z y) eqn:Hy; try reflexivity.
  apply andb_true_iff in Hx as [_ Hxz], Hy as [Hzy _].
  apply Z.leb_le in Hxz, Hzy.
  pose proof (compare_trans x z y Hxz Hzy) as H. unfold before in H. lia.
Qed.

Lemma Array_sort_stable z l :
  List.filter (ties z) (Array_sort compare l) = List.filter (ties z) l.
Proof.
  induction l as [|x l IH]; [reflexivity|].
  cbn [Array_sort foldr]. rewrite sort_insert_stable.
  cbn [List.filter]. fold (Array_sort compare l). by rewrite IH.
Qed.

End ArraySort.

Lemma StronglySorted_weaken {A} (R R' : A → A → Prop) l :
  (∀ a b, R a b → R' a b) → StronglySorted R l → StronglySorted R' l.
Proof.
  intros HR. induction 1 as [|x l _ IH Hx]; constructor; [exact IH|].
  eapply Forall_impl; [exact Hx|]. intros y. apply HR.
Qed.

Lemma requestedAt_seconds_second (r : Request.t) :
  requestedAt_seconds r = request_second r.
Proof.
  unfold requestedAt_seconds, request_second.
  destruct (Request.requestedAt r) as [t|]; [|reflexivity].
  destruct (Z.eqb_spec (seconds t) 0); congruence.
Qed.

Lemma statusOrder_precedes (a b : RequestStatus) :
  statusOrder a < statusOrder b ↔ status_precedes a b.
Proof.
  split.
  - destruct a, b; simpl; intros H; try lia; constructor.
  - destruct 1; simpl; lia.
Qed.

Lemma statusOrder_inj (a b : RequestStatus) :
  statusOrder a = statusOrder b ↔ a = b.
Proof. split; [destruct a, b; simpl; intros; congruence || lia|by intros ->]. Qed.

(** The comparator on its own keys. *)
Lemma MyBorrows_compare_keys (a b : Doc Request.t) :
  MyBorrows_compare a b ≤ 0
  ↔ statusOrder (Request.status a.2) < statusOrder (Request.status b.2)
    ∨ (statusOrder (Request.status a.2) = statusOrder (Request.status b.2)
       ∧ requestedAt_seconds b.2 ≤ requestedAt_seconds a.2).
Proof.
  unfold MyBorrows_compare.
  destruct (Z.eqb_spec (statusOrder (Request.status a.2))
              (statusOrder (Request.status b.2))); simpl; lia.
Qed.

Lemma MyBorrows_compare_le (a b : Doc Request.t) :
  MyBorrows_compare a b ≤ 0 ↔ history_order a b.
Proof.
  rewrite MyBorrows_compare_keys. unfold history_order.
  by rewrite statusOrder_precedes, statusOrder_inj, !requestedAt_seconds_second.
Qed.

Lemma MyBorrows_compare_total (a b : Doc Request.t) :
  MyBorrows_compare a b ≤ 0 ∨ MyBorrows_compare b a ≤ 0.
Proof. rewrite !MyBorrows_compare_keys. lia. Qed.

Lemma MyBorrows_compare_trans (a b c : Doc Request.t) :
  MyBorrows_compare a b ≤ 0 → MyBorrows_compare b c ≤ 0 → MyBorrows_compare a c ≤ 0.
Proof. rewrite !MyBorrows_compare_keys. lia. Qed.

Lemma MyBorrows_sorted (l : list (Doc Request.t)) :
  StronglySorted history_order (Array_sort MyBorrows_compare l).
Proof.
  eapply StronglySorted_weaken;
    [|apply Array_sort_StronglySorted;
      [apply MyBorrows_compare_total|apply MyBorrows_compare_trans]].
  intros a b. apply MyBorrows_compare_le.
Qed.


(** ** The handlers, one call at a time *)

Lemma or_string_empty (a : option string) : or_string a "" = default "" a.
Proof. destruct a as [[|c s]|]; reflexivity. Qed.

(** Unfolds a handler down to the lookups it makes in the store. *)
Ltac step_handler :=
  unfold MyItems_handleAction, MyBorrows_handleReturn, BorrowModal_handleSubmit,
    AddItemModal_handleSubmit, try_catch, console_error, throw,
    doc, collection, itemsPath, requestsPath,
    updateRequestStatus, updateItemStatus, getRequest, addRequest, addItem,
    store_of, events_of, result_of, mbind, mret, M_bind, M_ret, bind, ret;
  simpl.











(** X1.  The share form writes nothing when the name or the description
    is empty: no database call is made and the store stays as it is. *)
Theorem AddItemModal_requires_name_and_description
    (appId : string) (ok : bool) (newId : DocId) (now : Timestamp) (uid : Uid)
    (profile : option Profile.t)
    (name description imageUrl terms : string) (s : Store) :
  truthy name = false ∨ truthy description = false →
  AddItemModal_handleSubmit appId ok newId now uid profile
    name description imageUrl terms s
  = (s, [], Ok tt).
Proof.
  intros [H|H]; unfold AddItemModal_handleSubmit; rewrite H; simpl;
    [done|by rewrite orb_true_r].
Qed.

Lemma AddItemModal_requires_name_and_description_witness :
  AddItemModal_handleSubmit (appId None) true "item2" noon "bob-uid" (userProfile bob)
    "Ladder" "" "" "" asked = (asked, [], Ok tt).
Proof. apply AddItemModal_requires_name_and_description. by right. Defined.



(** X4.  The borrow form writes nothing when either date is empty. *)
Theorem BorrowModal_requires_both_dates
    (appId : string) (ok : bool) (newId : DocId) (now : Timestamp) (uid : Uid)
    (profile : option Profile.t)
    (item : Doc Item.t) (borrowDate returnDate message : string) (s : Store) :
  truthy borrowDate = false ∨ truthy returnDate = false →
  BorrowModal_handleSubmit appId ok newId now uid profile item
    borrowDate returnDate message s = (s, [], Ok tt).
Proof.
  intros [H|H]; unfold BorrowModal_handleSubmit; rewrite H; simpl;
    [done|by rewrite orb_true_r].
Qed.

Lemma BorrowModal_requires_both_dates_witness :
  BorrowModal_handleSubmit (appId None) true "req2" noon "cat-uid" (userProfile cat)
    ("item1", drill) "2024-05-01" "" "" asked = (asked, [], Ok tt).
Proof. apply BorrowModal_requires_both_dates. by right. Defined.





(** ** Session bootstrap *)

Ltac step_sign_in :=
  unfold App_onAuthStateChanged, setUser, setUserProfile, setIsAuthReady,
    getProfile, addProfile, doc, collection, store_of, events_of, result_of,
    mbind, mret, M_bind, M_ret, bind, ret;
  simpl.

(** The reference to the profile has five segments: the callback is over
    at [doc], after [setUser]. *)
Lemma App_onAuthStateChanged_stops
    (appId : string) (ok_read ok_write : bool) (newId : DocId) (now : Timestamp)
    (uid : Uid) (w : AuthWorld) :
  App_onAuthStateChanged appId ok_read ok_write newId now (Some uid) w
  = (mkAuthWorld (docs w)
       (App.mk (Some uid) (App.userProfile (app w)) (App.isAuthReady (app w))),
     [], Threw InvalidArgument).
Proof. reflexivity. Qed.

(** C7, as the code runs it.  A user signs in for the first time: the
    callback throws at the reference to the profile, before the look-up;
    no profile is stored and none is set.  The same user signs in again:
    the same happens, and there is no stored profile to find. *)
Theorem C7_sign_in_stores_no_profile :
  let sign_in newId :=
    App_onAuthStateChanged (appId None) true true newId noon (Some "u1234567") in
  let first := sign_in "p1" freshWorld in
  let second := sign_in "p2" (store_of first) in
  result_of first = Threw InvalidArgument
  ∧ events_of first = []
  ∧ docs (store_of first) = ∅
  ∧ App.userProfile (app (store_of first)) = None
  ∧ result_of second = Threw InvalidArgument
  ∧ events_of second = []
  ∧ docs (store_of second) = ∅
  ∧ App.userProfile (app (store_of second)) = None.
Proof. repeat split. Qed.

(** X21.  The sign-in callback has no [try]: when the read of the profile
    is refused, or the write of a new one is, it throws before
    [setIsAuthReady(true)].  Nothing is stored, no profile is set, and an
    application that showed "Loading Toolkit..." goes on showing it. *)
Theorem sign_in_failure_leaves_app_loading
    (app_id : string) (ok_read ok_write : bool) (newId : DocId) (now : Timestamp)
    (uid : Uid) (w : AuthWorld) (db : bool) (page : PageName) :
  ok_read = false
  ∨ (docs w !! profilePath app_id uid = None
     ∧ (ok_write = false ∨ is_Some (docs w !! (profilePath app_id uid ++ [newId])))) →
  let out := App_onAuthStateChanged app_id ok_read ok_write newId now (Some uid) w in
  (∃ e, result_of out = Threw e)
  ∧ docs (store_of out) = docs w
  ∧ App.user (app (store_of out)) = Some uid
  ∧ App.userProfile (app (store_of out)) = App.userProfile (app w)
  ∧ App.isAuthReady (app (store_of out)) = App.isAuthReady (app w)
  ∧ (App.isAuthReady (app w) = false →
     App_render (app (store_of out)) db page = LoadingToolkit).
Proof.
  intros _. cbv zeta. rewrite App_onAuthStateChanged_stops.
  unfold store_of, result_of, App_render. simpl.
  repeat split; eauto. by intros ->.
Qed.

Lemma sign_in_failure_leaves_app_loading_witness :
  App_render
    (app (store_of (App_onAuthStateChanged (appId None) false true "p1" noon
                      (Some "u1234567") freshWorld)))
    true dashboard = LoadingToolkit.
Proof.
  apply (sign_in_failure_leaves_app_loading (appId None) false true "p1" noon
           "u1234567" freshWorld true dashboard); [by left|reflexivity].
Defined.

(** ** What the views offer *)


Lemma elem_of_List_filter {A} (f : A → bool) (l : list A) (x : A) :
  x ∈ List.filter f l ↔ x ∈ l ∧ f x = true.
Proof. by rewrite !list_elem_of_In, filter_In. Qed.

Lemma Dashboard_cards_store (uid : Uid) (s : Store) (d : Doc Item.t) :
  d ∈ Dashboard_cards (map_to_list (items s)) uid →
  items s !! d.1 = Some d.2
  ∧ Item.status d.2 = available ∧ Item.ownerId d.2 ≠ uid.
Proof.
  rewrite Dashboard_cards_filter, elem_of_List_filter, Dashboard_filter_true.
  destruct d as [id it]. by rewrite elem_of_map_to_list.
Qed.



(** * Further properties of the views *)



(** ** The borrow history *)


Lemma approved_first (l : list (Doc Request.t)) :
  StronglySorted history_order l →
  l = List.filter (fun req => bool_decide (Request.status req.2 = approved)) l
      ++ List.filter (fun req => negb (bool_decide (Request.status req.2 = approved))) l.
Proof.
  induction 1 as [|x l Hs IH Hx]; [reflexivity|]. simpl.
  destruct (bool_decide_reflect (Request.status x.2 = approved)) as [Ha|Hna]; simpl.
  - by rewrite <- IH.
  - assert (Forall (fun y => Request.status y.2 ≠ approved) l) as Hl.
    { eapply Forall_impl; [exact Hx|]. intros y [Hxy|[Hxy _]] Hy.
      - rewrite Hy in Hxy. inversion Hxy.
      - congruence. }
    clear -Hl.
    assert (List.filter (fun req => bool_decide (Request.status req.2 = approved)) l = []
            ∧ List.filter (fun req => negb (bool_decide (Request.status req.2 = approved))) l = l)
      as [-> ->]; [|reflexivity].
    induction Hl as [|y l Hy _ [IH1 IH2]]; [done|]. simpl.
    rewrite bool_decide_eq_false_2 by done. simpl. by rewrite IH1, IH2.
Qed.

(** X12.  The rows with the button "Mark as Returned" stand at the top of
    the borrow history: the history is those rows followed by all the
    others. *)
Theorem MyBorrows_returnable_rows_come_first (uid : Uid) (s : Store) :
  MyBorrows_myRequests uid s
  = MyBorrows_returnable uid s
    ++ List.filter (fun req => negb (bool_decide (Request.status req.2 = approved)))
         (MyBorrows_myRequests uid s).
Proof. apply approved_first, MyBorrows_sorted. Qed.

(** X13.  The comparator of the borrow history is a consistent one, as
    [Array.prototype.sort] needs it: swapping the arguments flips the
    sign, it is transitive, and it ties exactly the requests of equal
    status and equal request second. *)
Theorem MyBorrows_compare_consistent :
  (∀ a b, MyBorrows_compare a b = - MyBorrows_compare b a)
  ∧ (∀ a b c, MyBorrows_compare a b ≤ 0 → MyBorrows_compare b c ≤ 0 →
              MyBorrows_compare a c ≤ 0)
  ∧ (∀ a b, MyBorrows_compare a b = 0
            ↔ Request.status a.2 = Request.status b.2
              ∧ request_second a.2 = request_second b.2).
Proof.
  split; [|split].
  - intros a b. unfold MyBorrows_compare.
    destruct (Z.eqb_spec (statusOrder (Request.status a.2))
                (statusOrder (Request.status b.2))),
             (Z.eqb_spec (statusOrder (Request.status b.2))
                (statusOrder (Request.status a.2))); simpl; lia.
  - apply MyBorrows_compare_trans.
  - intros a b. rewrite <- !requestedAt_seconds_second. unfold MyBorrows_compare.
    destruct (Z.eqb_spec (statusOrder (Request.status a.2))
                (statusOrder (Request.status b.2))) as [E|E]; simpl.
    + apply statusOrder_inj in E.
      split; [intros; split; [done|lia]|intros [_ ?]; lia].
    + split; [lia|]. intros [Hst _]. by rewrite Hst in E.
Qed.

Lemma Array_sort_sorted_id {A} (compare : A → A → Z) (l : list A) :
  StronglySorted (fun a b => compare a b ≤ 0) l → Array_sort compare l = l.
Proof.
  induction 1 as [|x l Hs IH Hx]; [reflexivity|].
  cbn [Array_sort foldr]. fold (Array_sort compare l). rewrite IH.
  destruct Hx as [|y l Hxy _]; [reflexivity|]. simpl.
  by rewrite (proj2 (Z.leb_le _ _) Hxy).
Qed.

(** X14.  Sorting the borrow history again changes nothing: the list a
    snapshot produced is a fixed point of the sort the next snapshot
    applies. *)
Theorem MyBorrows_sort_idempotent (l : list (Doc Request.t)) :
  Array_sort MyBorrows_compare (Array_sort MyBorrows_compare l)
  = Array_sort MyBorrows_compare l.
Proof.
  apply Array_sort_sorted_id. apply Array_sort_StronglySorted.
  - apply MyBorrows_compare_total.
  - apply MyBorrows_compare_trans.
Qed.

(** ** Browsing against the inventory *)






(** * Runs *)









(** * Further properties of runs *)










